(** * engine3D: a wireframe renderer on a fixed view plane

    A shallow embedding of [src/engine3D.py] (classes [Engine], [Shape] and
    [Square]) and the properties its specification states about it.

    Conventions of the embedding.
    - Numbers.  The coordinates are Python floats: binary64 numbers, here the
      primitive [float] with its [+], [-], [*] and [/], each rounded to the
      nearest value as Python rounds it, and with the comparison [=?] for
      [==], under which [0.0] and [-0.0] are equal and a NaN differs from
      itself.  A decimal literal is the float nearest to it, as in Python.
      [/] of the source is [truediv], which raises [ZeroDivisionError] on a
      divisor equal to zero.  An integer of the source that enters float
      arithmetic ([1/a0], the [-1] and [1] of [Square], the [4] of the
      demonstration) is the float of the same value; [float(n)] is
      [float_of_int].
    - Lists.  Vectors, vertices and edges are Python lists; they are lists
      here, read with [getitem] and written with [setitem], both of which
      follow Python's subscript rules (negative subscripts count from the
      end, anything else out of range raises [IndexError]).
    - Effects.  Methods mutate their object and may raise; a method is a
      function from the object's state to the new state and an outcome
      ([Py]).  The state reached when an exception is raised is kept.
    - Objects.  Each attribute holds a list object of its own, and each entry
      of [shapes] is a shape of its own (the scene owns observer, view plane
      and shapes exclusively), so objects are values. *)

From Stdlib Require Import ZArith Lia Floats.
From stdpp Require Import base numbers relations list.

#[local] Set Warnings "-inexact-float".
Open Scope float_scope.

(** ** Python values, exceptions and subscripts *)

Module Py.

(** [float(n)] on an integer within the range of floats: the nearest float,
    [n] itself up to [2^53]. *)
Definition float_of_int (n : Z) : float :=
  SF2Prim (binary_normalize prec emax n 0 false).

(** [x != y] on floats. *)
Definition ne (x y : float) : bool := negb (x =? y).

Inductive exn : Type :=
| IndexError
| ZeroDivisionError.

Inductive result (A : Type) : Type :=
| Ok (a : A)
| Raise (e : exn).
Arguments Ok {A} a.
Arguments Raise {A} e.

#[global] Instance exn_eq_dec : EqDecision exn.
Proof. solve_decision. Defined.
#[global] Instance result_eq_dec {A} `{EqDecision A} : EqDecision (result A).
Proof. solve_decision. Defined.

#[global] Instance result_ret : MRet result := λ A a, Ok a.
#[global] Instance result_bind : MBind result := λ A B f r,
  match r with
  | Ok a => f a
  | Raise e => Raise e
  end.
#[global] Instance result_fmap : FMap result := λ A B f r,
  match r with
  | Ok a => Ok (f a)
  | Raise e => Raise e
  end.

(** [x / y] on floats. *)
Definition truediv (x y : float) : result float :=
  if y =? 0 then Raise ZeroDivisionError else Ok (x / y).

(** The position a subscript [i] denotes in a list of length [n]. *)
Definition position (n : nat) (i : Z) : option nat :=
  if (0 <=? i)%Z then
    (if (i <? Z.of_nat n)%Z then Some (Z.to_nat i) else None)
  else
    (if (- Z.of_nat n <=? i)%Z then Some (Z.to_nat (Z.of_nat n + i)) else None).

(** [l[i]] *)
Definition getitem {A} (l : list A) (i : Z) : result A :=
  match position (length l) i with
  | Some k =>
      match l !! k with
      | Some x => Ok x
      | None => Raise IndexError
      end
  | None => Raise IndexError
  end.

(** [l[i] = v] *)
Definition setitem {A} (l : list A) (i : Z) (v : A) : result (list A) :=
  match position (length l) i with
  | Some k => Ok (<[k := v]> l)
  | None => Raise IndexError
  end.

(** [enumerate(l)] *)
Definition enumerate {A} (l : list A) : list (Z * A) :=
  imap (λ i x, (Z.of_nat i, x)) l.

(** [range(n)] *)
Definition range (n : nat) : list Z := Z.of_nat <$> seq 0 n.

(** A method on an object of state [S] returning an [A]. *)
Definition Py (S A : Type) : Type := S → S * result A.

#[global] Instance Py_ret {S} : MRet (Py S) := λ A a s, (s, Ok a).
#[global] Instance Py_bind {S} : MBind (Py S) := λ A B f m s,
  match m s with
  | (s', Ok a) => f a s'
  | (s', Raise e) => (s', Raise e)
  end.

(** The outcome of a pure expression inside a method. *)
Definition lift {S A} (r : result A) : Py S A := λ s, (s, r).

(** Reading an attribute, and assigning to attributes. *)
Definition gets {S A} (f : S → A) : Py S A := λ s, (s, Ok (f s)).
Definition modify {S} (f : S → S) : Py S unit := λ s, (f s, Ok tt).

(** [for x in l: body] *)
Fixpoint for_each {S A} (l : list A) (body : A → Py S unit) : Py S unit :=
  match l with
  | [] => mret tt
  | x :: l' => body x ;; for_each l' body
  end.

(** [for o in l: o.method()] where the elements of [l] are objects. *)
Fixpoint for_objects {S} (l : list S) (method : Py S unit)
  : list S * result unit :=
  match l with
  | [] => ([], Ok tt)
  | o :: l' =>
      match method o with
      | (o', Ok _) =>
          let '(l'', r) := for_objects l' method in (o' :: l'', r)
      | (o', Raise e) => (o' :: l', Raise e)
      end
  end.

End Py.
Import Py.

(** ** The display surface

    The window toolkit is not part of the repository.  Of its canvas the
    engine uses the viewport size, [create_line], which draws a segment and
    returns its handle, and [delete], which removes the segment of a handle;
    of its root window the timer [after]. *)

Module Tk.

Definition segment : Type := float * float * float * float.

Record Canvas : Type := {
  winfo_width : Z;
  winfo_height : Z;
  items : list (Z * segment);
  next_item : Z
}.

Definition create_line (x1 y1 x2 y2 : float) (c : Canvas) : Canvas * Z :=
  ({| winfo_width := winfo_width c;
      winfo_height := winfo_height c;
      items := items c ++ [(next_item c, (x1, y1, x2, y2))];
      next_item := (next_item c + 1)%Z |},
   next_item c).

Definition delete (cid : Z) (c : Canvas) : Canvas :=
  {| winfo_width := winfo_width c;
     winfo_height := winfo_height c;
     items := filter (λ it, it.1 ≠ cid) (items c);
     next_item := next_item c |}.

(** The segments on the canvas, in drawing order. *)
Definition drawn (c : Canvas) : list segment := snd <$> items c.

(** The root window: the delays of the timers requested with [after]. *)
Record Root : Type := { timers : list Z }.

Definition after (ms : Z) (r : Root) : Root := {| timers := timers r ++ [ms] |}.

End Tk.

(** ** class Shape *)

Record Shape : Type := {
  verts : list (list float);
  edges : list (list Z);
  verts_proj : list (list float)
}.

Definition set_verts_proj (vp : list (list float)) (s : Shape) : Shape :=
  {| verts := verts s; edges := edges s; verts_proj := vp |}.

(** [Shape.__init__] *)
Definition Shape__init__ (verts : option (list (list float)))
    (edges : option (list (list Z))) : Shape :=
  {| verts := match verts with None => [] | Some v => v end;
     edges := match edges with None => [] | Some e => e end;
     verts_proj := [] |}.

(** The body of the loop of [Shape.window_projection] for the vertex [p],
    up to the value appended to [verts_proj]. *)
Definition project_vertex (obs window_pos p : list float)
  : result (list float) :=
  let p2 : list float := [0.0; 0.0] in
  p_0 ← getitem p 0; obs_0 ← getitem obs 0;
  p2 ← (if ne p_0 obs_0 then
          p_2 ← getitem p 2; obs_2 ← getitem obs 2;
          p_0 ← getitem p 0; obs_0 ← getitem obs 0;
          a0 ← truediv (p_2 - obs_2) (p_0 - obs_0);
          inv ← truediv 1 a0;
          window_pos_2 ← getitem window_pos 2; obs_2 ← getitem obs 2;
          obs_0 ← getitem obs 0;
          setitem p2 0 (inv * (window_pos_2 - obs_2 + a0 * obs_0))
        else
          p_0 ← getitem p 0;
          setitem p2 0 p_0);
  p_1 ← getitem p 1; obs_1 ← getitem obs 1;
  p2 ← (if ne p_1 obs_1 then
          p_2 ← getitem p 2; obs_2 ← getitem obs 2;
          p_1 ← getitem p 1; obs_1 ← getitem obs 1;
          a1 ← truediv (p_2 - obs_2) (p_1 - obs_1);
          inv ← truediv 1 a1;
          window_pos_2 ← getitem window_pos 2; obs_2 ← getitem obs 2;
          obs_1 ← getitem obs 1;
          setitem p2 1 (inv * (window_pos_2 - obs_2 + a1 * obs_1))
        else
          p_1 ← getitem p 1;
          setitem p2 1 p_1);
  mret p2.

(** [Shape.window_projection] *)
Definition window_projection (obs window_pos : list float) : Py Shape unit :=
  modify (set_verts_proj []) ;;
  vs ← gets verts;
  for_each vs (λ p,
    p2 ← lift (project_vertex obs window_pos p);
    modify (λ s, set_verts_proj (verts_proj s ++ [p2]) s)).

(** ** class Square *)

(** [v[i][j]] and [v[i][j] = x] on the local list of vertices [v]. *)
Definition read_coord (i j : Z) : Py (list (list float)) float := λ v,
  (v, v_i ← getitem v i; getitem v_i j).
Definition assign_coord (i j : Z) (x : float)
  : Py (list (list float)) unit := λ v,
  match (v_i ← getitem v i; v_i' ← setitem v_i j x; setitem v i v_i') with
  | Ok v' => (v', Ok tt)
  | Raise e => (v, Raise e)
  end.

(** [Square.__init__]: the new shape, or the exception raised.  The size is
    a float, which [float(size)] returns as it is. *)
Definition Square (pos : option (list float)) (size : float) : result Shape :=
  let v : list (list float) :=
    [[-1; -1; -1]; [1; -1; -1]; [1; 1; -1]; [-1; 1; -1];
     [-1; -1; 1]; [1; -1; 1]; [1; 1; 1]; [-1; 1; 1]] in
  let e : list (list Z) :=
    [[0; 1]; [1; 2]; [2; 3]; [3; 0]; [4; 5]; [5; 6]; [6; 7]; [7; 4];
     [0; 4]; [1; 5]; [2; 6]; [3; 7]]%Z in
  size ← truediv size 2;
  let pos :=
    match pos with
    | None => [0.0; 0.0; 0.0]
    | Some pos => pos
    end in
  let '(v, r) :=
    for_each (range (length v)) (λ i : Z,
      (v_i_0 ← read_coord i 0; pos_0 ← lift (getitem pos 0);
       assign_coord i 0 (v_i_0 * size + pos_0)) ;;
      (v_i_1 ← read_coord i 1; pos_1 ← lift (getitem pos 1);
       assign_coord i 1 (v_i_1 * size + pos_1)) ;;
      (v_i_2 ← read_coord i 2; pos_2 ← lift (getitem pos 2);
       assign_coord i 2 (v_i_2 * size + pos_2))) v in
  _ ← r;
  mret (Shape__init__ (Some v) (Some e)).

(** ** class Engine *)

Record Engine : Type := {
  root : Tk.Root;
  canvas : Tk.Canvas;
  canvas_shape : list Z;
  obs : list float;
  window_pos : list float;
  window_size : list float;
  shapes : list Shape;
  canvas_id : list Z
}.

Definition set_canvas (c : Tk.Canvas) (e : Engine) : Engine :=
  {| root := root e; canvas := c; canvas_shape := canvas_shape e;
     obs := obs e; window_pos := window_pos e; window_size := window_size e;
     shapes := shapes e; canvas_id := canvas_id e |}.
Definition set_root (r : Tk.Root) (e : Engine) : Engine :=
  {| root := r; canvas := canvas e; canvas_shape := canvas_shape e;
     obs := obs e; window_pos := window_pos e; window_size := window_size e;
     shapes := shapes e; canvas_id := canvas_id e |}.
Definition set_canvas_shape (cs : list Z) (e : Engine) : Engine :=
  {| root := root e; canvas := canvas e; canvas_shape := cs;
     obs := obs e; window_pos := window_pos e; window_size := window_size e;
     shapes := shapes e; canvas_id := canvas_id e |}.
Definition set_obs (o : list float) (e : Engine) : Engine :=
  {| root := root e; canvas := canvas e; canvas_shape := canvas_shape e;
     obs := o; window_pos := window_pos e; window_size := window_size e;
     shapes := shapes e; canvas_id := canvas_id e |}.
Definition set_window_pos (w : list float) (e : Engine) : Engine :=
  {| root := root e; canvas := canvas e; canvas_shape := canvas_shape e;
     obs := obs e; window_pos := w; window_size := window_size e;
     shapes := shapes e; canvas_id := canvas_id e |}.
Definition set_shapes (ss : list Shape) (e : Engine) : Engine :=
  {| root := root e; canvas := canvas e; canvas_shape := canvas_shape e;
     obs := obs e; window_pos := window_pos e; window_size := window_size e;
     shapes := ss; canvas_id := canvas_id e |}.
Definition set_canvas_id (ids : list Z) (e : Engine) : Engine :=
  {| root := root e; canvas := canvas e; canvas_shape := canvas_shape e;
     obs := obs e; window_pos := window_pos e; window_size := window_size e;
     shapes := shapes e; canvas_id := ids |}.

(** An argument that is [None] or an empty list is false. *)
Definition truthy {A} (o : option (list A)) : bool :=
  match o with
  | Some (_ :: _) => true
  | _ => false
  end.

(** [Engine.__init__], on a root window and a canvas. *)
Definition Engine__init__ (root : Tk.Root) (canvas : Tk.Canvas)
    (obs window_pos window_size : option (list float)) : Engine :=
  {| root := root;
     canvas := canvas;
     canvas_shape := [0; 0]%Z;
     obs := if truthy obs then default [] obs
            else [0.0; 0.0; -1.0];
     window_pos := if truthy window_pos then default [] window_pos
                   else [-0.5; -0.5; 0.0];
     window_size := if truthy window_size then default [] window_size
                    else [1.0; 1.0];
     shapes := [];
     canvas_id := [] |}.

(** [Engine.move_obs] *)
Definition move_obs (vect : list float) : Py Engine unit :=
  for_each (enumerate vect) (λ '(i, x),
    (o ← gets obs; o_i ← lift (getitem o i);
     o' ← lift (setitem o i (o_i + x)); modify (set_obs o')) ;;
    (w ← gets window_pos; w_i ← lift (getitem w i);
     w' ← lift (setitem w i (w_i + x)); modify (set_window_pos w'))).

(** [Engine.add_shape] *)
Definition add_shape (shape : Shape) : Py Engine unit :=
  modify (λ e, set_shapes (shapes e ++ [shape]) e).

(** [Engine.render] *)
Definition render : Py Engine unit := λ e,
  let '(ss, r) :=
    for_objects (shapes e) (window_projection (obs e) (window_pos e)) in
  (set_shapes ss e, r).

(** The body of the inner loop of [Engine.draw], for the edge [edge] of the
    shape [s]. *)
Definition draw_edge (s : Shape) (edge : list Z) : Py Engine unit :=
  edge_0 ← lift (getitem edge 0); a ← lift (getitem (verts_proj s) edge_0);
  edge_1 ← lift (getitem edge 1); b ← lift (getitem (verts_proj s) edge_1);
  let mult := 200.0 in
  cs ← gets canvas_shape; width ← lift (getitem cs 0);
  translation_x ← lift (truediv (float_of_int width) 2);
  cs ← gets canvas_shape; height ← lift (getitem cs 1);
  translation_y ← lift (truediv (float_of_int height) 2);
  a_0 ← lift (getitem a 0); a_1 ← lift (getitem a 1);
  b_0 ← lift (getitem b 0); b_1 ← lift (getitem b 1);
  cid ← (λ e,
    let '(c, cid) :=
      Tk.create_line (a_0 * mult + translation_x) (a_1 * mult + translation_y)
                     (b_0 * mult + translation_x) (b_1 * mult + translation_y)
                     (canvas e) in
    (set_canvas c e, Ok cid));
  modify (λ e, set_canvas_id (canvas_id e ++ [cid]) e).

(** [Engine.draw] *)
Definition draw : Py Engine unit :=
  ids ← gets canvas_id;
  for_each ids (λ cid, modify (λ e, set_canvas (Tk.delete cid (canvas e)) e)) ;;
  modify (set_canvas_id []) ;;
  ss ← gets shapes;
  for_each ss (λ s, for_each (edges s) (draw_edge s)).


(** [Engine.update]; [func] is the optional callback, a procedure on the
    engine. *)
Definition update (func : option (Py Engine unit)) : Py Engine unit :=
  match func with
  | Some func => func
  | None => mret tt
  end ;;
  c ← gets canvas;
  modify (set_canvas_shape [Tk.winfo_width c; Tk.winfo_height c]) ;;
  render ;;
  draw ;;
  modify (λ e, set_root (Tk.after 30 (root e)) e).

(** The arguments the loop body of [draw] computes for [create_line]: its
    reads and its arithmetic, in their order, on the stored viewport [cs] and
    the projected cache [vp]. *)
Definition edge_segment (cs : list Z) (vp : list (list float)) (edge : list Z)
  : result Tk.segment :=
  edge_0 ← getitem edge 0; a ← getitem vp edge_0;
  edge_1 ← getitem edge 1; b ← getitem vp edge_1;
  let mult := 200.0 in
  width ← getitem cs 0; translation_x ← truediv (float_of_int width) 2;
  height ← getitem cs 1; translation_y ← truediv (float_of_int height) 2;
  a_0 ← getitem a 0; a_1 ← getitem a 1;
  b_0 ← getitem b 0; b_1 ← getitem b 1;
  mret (a_0 * mult + translation_x, a_1 * mult + translation_y,
        b_0 * mult + translation_x, b_1 * mult + translation_y).

(** [self.canvas_id.append(self.canvas.create_line(x1, y1, x2, y2))] *)
Definition emit (e : Engine) (seg : Tk.segment) : Engine :=
  let '(x1, y1, x2, y2) := seg in
  let '(c, cid) := Tk.create_line x1 y1 x2 y2 (canvas e) in
  set_canvas_id (canvas_id e ++ [cid]) (set_canvas c e).

(** The display surface once the segments of the previous [draw] are
    removed. *)
Definition cleared (e : Engine) : Tk.Canvas :=
  foldl (λ c cid, Tk.delete cid c) (canvas e) (canvas_id e).

(** The callback of a tick, when there is one. *)
Definition callback (func : option (Py Engine unit)) : Py Engine unit :=
  match func with
  | Some func => func
  | None => mret tt
  end.

(** [self.canvas_shape = [self.canvas.winfo_width(), self.canvas.winfo_height()]] *)
Definition refresh_viewport (e : Engine) : Engine :=
  set_canvas_shape [Tk.winfo_width (canvas e); Tk.winfo_height (canvas e)] e.

(** The tick in the order the specification gives it: the viewport is
    refreshed, then the callback runs, then the shapes are projected and
    drawn and the next tick is requested. *)
Definition tick_as_specified (func : option (Py Engine unit))
  : Py Engine unit :=
  modify refresh_viewport ;;
  callback func ;;
  render ;;
  draw ;;
  modify (λ e, set_root (Tk.after 30 (root e)) e).

(** ** Sample scenes *)

Module Demo.

(** The root window and the canvas of the demonstration at the end of the
    source file: 600x500, nothing drawn. *)
Definition tk_root : Tk.Root := {| Tk.timers := [] |}.
Definition tk_canvas : Tk.Canvas :=
  {| Tk.winfo_width := 600; Tk.winfo_height := 500;
     Tk.items := []; Tk.next_item := 1 |}.

(** [eng] of the demonstration: the observer one unit behind a centred
    window. *)
Definition eng : Engine :=
  Engine__init__ tk_root tk_canvas
    (Some [0.0; 0.0; -1.0])
    (Some [-0.5; -0.5; 0.0])
    (Some [1.0; 1.0]).

(** A cube of size 1 four units in front of the view plane. *)
Definition cube : Shape :=
  match Square (Some [0.0; 0.0; 4]) 1 with
  | Ok s => s
  | Raise _ => Shape__init__ None None
  end.


(** The engine with the shape [s] added, the viewport read and the shape
    projected. *)
Definition scene (s : Shape) : Engine :=
  (render (refresh_viewport (add_shape s eng).1)).1.


(** A callback that moves the observer to the right by the stored viewport
    width. *)
Definition stride : Py Engine unit :=
  cs ← gets canvas_shape; width ← lift (getitem cs 0);
  move_obs [float_of_int width; 0.0; 0.0].


(** A callback that resizes the window. *)
Definition resize (width height : Z) : Py Engine unit :=
  modify (λ e,
    set_canvas {| Tk.winfo_width := width; Tk.winfo_height := height;
                  Tk.items := Tk.items (canvas e);
                  Tk.next_item := Tk.next_item (canvas e) |} e).

End Demo.



(** [m] keeps the property [I] of the state, whatever its outcome. *)
Definition preserves {S A} (I : S → Prop) (m : Py S A) : Prop :=
  ∀ s, I s → I (m s).1.

(** ** The specification's vocabulary *)

Module Spec.

(** An ordered triple of floats. *)
Record Vec3 : Type := { vx : float; vy : float; vz : float }.

Definition to_list (v : Vec3) : list float := [vx v; vy v; vz v].


(** The two axes of the view plane. *)
Inductive axis : Type := X | Y.

Definition coord (A : axis) (v : Vec3) : float :=
  match A with
  | X => vx v
  | Y => vy v
  end.

(** The slope [a] of the ray from [O] through [P] along the axis [A]. *)
Definition slope (A : axis) (P O : Vec3) : float :=
  (vz P - vz O) / (coord A P - coord A O).

(** The value the two formulas of the projector give along the axis [A],
    computed in floats: [(1/a) * (W.z − O.z + a * O[A])] when [P[A] != O[A]],
    and [P[A]] otherwise. *)
Definition axis_value (A : axis) (P O W : Vec3) : float :=
  if ne (coord A P) (coord A O)
  then (1 / slope A P O) * (vz W - vz O + slope A P O * coord A O)
  else coord A P.

(** The two divisions the projector performs along the axis [A] when
    [P[A] != O[A]] have divisors other than zero: the difference
    [P[A] − O[A]] and the slope. *)
Definition divides (A : axis) (P O : Vec3) : bool :=
  if ne (coord A P) (coord A O)
  then negb (coord A P - coord A O =? 0) && negb (slope A P O =? 0)
  else true.

(** Device units per world unit. *)
Definition scale : float := 200.

(** [pixel = projected * scale + viewport_size / 2] *)
Definition to_pixel (w h : Z) (p : float * float) : float * float :=
  (p.1 * scale + float_of_int w / 2, p.2 * scale + float_of_int h / 2).



(** The side of the center a corner lies on along an axis: [true] for the
    greater coordinate. *)
Definition side (b : bool) : float := if b then 1 else -1.

(** The corner of the cube of center [c] and edge length [s] on the sides
    [σ] of the center: [c ± s/2] along each axis. *)
Definition corner (c : Vec3) (s : float) (σ : bool * bool * bool)
  : list float :=
  [vx c + side σ.1.1 * (s / 2);
   vy c + side σ.1.2 * (s / 2);
   vz c + side σ.2 * (s / 2)].

(** The eight choices of sides. *)
Definition cube_sides : list (bool * bool * bool) :=
  [(false, false, false); (true, false, false);
   (true, true, false); (false, true, false);
   (false, false, true); (true, false, true);
   (true, true, true); (false, true, true)].

(** Two corners differ along exactly one axis. *)
Definition one_axis_apart (σ τ : bool * bool * bool) : Prop :=
  length (filter (λ b, b = true)
            [xorb σ.1.1 τ.1.1; xorb σ.1.2 τ.1.2; xorb σ.2 τ.2]) = 1%nat.

(** The vertices [i] and [j] are joined by an edge of [es]. *)
Definition adjacent (es : list (list Z)) (i j : Z) : Prop :=
  [i; j] ∈ es ∨ [j; i] ∈ es.

(** Any two of the vertices [0 .. n-1] are linked by a path of edges. *)
Definition connected (n : Z) (es : list (list Z)) : Prop :=
  ∀ i j, (0 ≤ i < n)%Z → (0 ≤ j < n)%Z → rtc (adjacent es) i j.

(** The number of edges of [es] that end at the vertex [i]. *)
Definition degree (es : list (list Z)) (i : Z) : nat :=
  length (filter (λ edge, i ∈ edge) es).

(** The sides along [z] of the two ends of an edge, the vertex [i] lying on
    the sides [sides !! i]. *)
Definition z_sides (sides : list (bool * bool * bool)) (edge : list Z)
  : list (option bool) :=
  (λ i, snd <$> sides !! Z.to_nat i) <$> edge.

(** The edges on the face of the lesser [z], on the face of the greater [z],
    and from one face to the other. *)
Definition front_edges (sides : list (bool * bool * bool))
    (es : list (list Z)) : list (list Z) :=
  filter (λ edge, z_sides sides edge = [Some false; Some false]) es.
Definition back_edges (sides : list (bool * bool * bool))
    (es : list (list Z)) : list (list Z) :=
  filter (λ edge, z_sides sides edge = [Some true; Some true]) es.
Definition connecting_edges (sides : list (bool * bool * bool))
    (es : list (list Z)) : list (list Z) :=
  filter (λ edge, z_sides sides edge = [Some false; Some true]
                  ∨ z_sides sides edge = [Some true; Some false]) es.

End Spec.



(** ** Further vocabulary *)

(** [i] is a subscript that Python accepts on a list of length [n]. *)
Definition subscript (n : nat) (i : Z) : Prop :=
  (- Z.of_nat n ≤ i < Z.of_nat n)%Z.

(** The segments the inner loop of [draw] submits for the edges [es] of a
    shape of cache [vp], up to the first edge that raises, with the outcome
    of the loop. *)
Fixpoint edge_segments (cs : list Z) (vp : list (list float))
    (es : list (list Z)) : list Tk.segment * result unit :=
  match es with
  | [] => ([], Ok tt)
  | edge :: es' =>
      match edge_segment cs vp edge with
      | Ok seg =>
          let '(segs, r) := edge_segments cs vp es' in (seg :: segs, r)
      | Raise x => ([], Raise x)
      end
  end.

(** The segments the loops of [draw] submit for the shapes [ss], up to the
    first edge that raises, with the outcome. *)
Fixpoint shape_segments (cs : list Z) (ss : list Shape)
  : list Tk.segment * result unit :=
  match ss with
  | [] => ([], Ok tt)
  | s :: ss' =>
      match edge_segments cs (verts_proj s) (edges s) with
      | (segs, Ok _) =>
          let '(segs', r) := shape_segments cs ss' in (segs ++ segs', r)
      | (segs, Raise x) => (segs, Raise x)
      end
  end.

(** The engine holds the handle of every segment on the display surface, in
    drawing order. *)
Definition tracked (e : Engine) : Prop :=
  fst <$> Tk.items (canvas e) = canvas_id e.

#[global] Instance subscript_dec (n : nat) (i : Z) : Decision (subscript n i).
Proof. unfold subscript. apply _. Defined.

(** Every edge of [s] starts with two subscripts that Python accepts on the
    vertex list of [s]. *)
Definition edges_in_range (s : Shape) : Prop :=
  Forall (λ edge, (2 ≤ length edge)%nat
                  ∧ Forall (subscript (length (verts s))) (take 2 edge))
    (edges s).

#[global] Instance edges_in_range_dec (s : Shape) : Decision (edges_in_range s).
Proof. unfold edges_in_range. apply _. Defined.

(** The list [l] with the components of [vect] added to its own, as far as
    [vect] reaches. *)
Definition shifted (vect l : list float) : list float :=
  imap (λ i y, match vect !! i with Some x => y + x | None => y end) l.

Definition set_window_size (ws : list float) (e : Engine) : Engine :=
  {| root := root e; canvas := canvas e; canvas_shape := canvas_shape e;
     obs := obs e; window_pos := window_pos e; window_size := ws;
     shapes := shapes e; canvas_id := canvas_id e |}.

(** * Properties *)

(** ** Subscripts and loops *)

Lemma position_nonneg (n : nat) (i : Z) :
  (0 ≤ i < Z.of_nat n)%Z → position n i = Some (Z.to_nat i).
Proof.
  intros [H0 Hn]. unfold position.
  destruct (Z.leb_spec 0 i); [|lia].
  destruct (Z.ltb_spec i (Z.of_nat n)); [reflexivity|lia].
Qed.


Lemma position_None (n : nat) (i : Z) :
  position n i = None ↔ (Z.of_nat n ≤ i ∨ i < - Z.of_nat n)%Z.
Proof.
  unfold position.
  destruct (Z.leb_spec 0 i).
  - destruct (Z.ltb_spec i (Z.of_nat n)); split; intros; try lia; try done.
  - destruct (Z.leb_spec (- Z.of_nat n) i); split; intros; try lia; try done.
Qed.

Lemma getitem_0 {A} (a : A) (l : list A) : getitem (a :: l) 0 = Ok a.
Proof. unfold getitem. rewrite position_nonneg; [done | simpl; lia]. Qed.

Lemma getitem_1 {A} (a b : A) (l : list A) : getitem (a :: b :: l) 1 = Ok b.
Proof. unfold getitem. rewrite position_nonneg; [done | simpl; lia]. Qed.

Lemma getitem_2 {A} (a b c : A) (l : list A) :
  getitem (a :: b :: c :: l) 2 = Ok c.
Proof. unfold getitem. rewrite position_nonneg; [done | simpl; lia]. Qed.

Lemma getitem_raises {A} (l : list A) (i : Z) (e : exn) :
  getitem l i = Raise e → e = IndexError.
Proof.
  unfold getitem. destruct (position _ _); [|congruence].
  destruct (l !! _); congruence.
Qed.


Lemma truediv_raises (x y : float) (e : exn) :
  truediv x y = Raise e → e = ZeroDivisionError.
Proof. unfold truediv. destruct (y =? 0); congruence. Qed.

(** Addition of floats is commutative. *)
Lemma SF64add_comm (x y : spec_float) : SF64add x y = SF64add y x.
Proof.
  unfold SF64add, SFadd.
  destruct x as [sx|sx| |sx mx ex], y as [sy|sy| |sy my ey]; try reflexivity.
  - by destruct sx, sy.
  - by destruct sx, sy.
  - by rewrite (Z.min_comm ey ex), (Z.add_comm (cond_Zopp sy _)).
Qed.

Lemma float_add_comm (x y : float) : x + y = y + x.
Proof. apply Prim2SF_inj. rewrite !add_spec. apply SF64add_comm. Qed.

(** Deciding a closed proposition by evaluation. *)
Ltac decide_by_evaluation :=
  apply (bool_decide_unpack _); vm_compute; exact I.

(** Unfolding of the monad's operations. *)
Ltac py_unfold :=
  unfold mbind, mret, Py_bind, Py_ret, result_bind, result_ret, lift, gets,
    modify in *.

Lemma for_each_cons {S A} (x : A) (l : list A) (body : A → Py S unit) (s : S) :
  for_each (x :: l) body s =
    match body x s with
    | (s', Ok _) => for_each l body s'
    | (s', Raise e) => (s', Raise e)
    end.
Proof. reflexivity. Qed.

(** A property of the state that every iteration keeps, whatever its
    outcome, holds when the loop is left. *)
Lemma for_each_invariant {S A} (I : S → Prop) (l : list A)
    (body : A → Py S unit) :
  (∀ x s, I s → I (body x s).1) →
  ∀ s, I s → I (for_each l body s).1.
Proof.
  intros Hbody. induction l as [|x l IH]; intros s Hs; [done|].
  rewrite for_each_cons. specialize (Hbody x s Hs).
  destruct (body x s) as [s' [[]|e]]; simpl in *; auto.
Qed.

(** A loop that completes has completed each of its iterations. *)
Lemma for_each_completed {S A} (P : A → Prop) (l : list A)
    (body : A → Py S unit) :
  (∀ x s s', body x s = (s', Ok tt) → P x) →
  ∀ s s', for_each l body s = (s', Ok tt) → Forall P l.
Proof.
  intros Hbody. induction l as [|x l IH]; intros s s' Hrun; [constructor|].
  rewrite for_each_cons in Hrun.
  destruct (body x s) as [s1 [[]|e]] eqn:Hx; [|discriminate].
  constructor; eauto.
Qed.


(** ** The projector on triples *)

Import Spec.

(** The projection of a triple: the two values of the formulas when every
    division has a divisor other than zero, and [ZeroDivisionError]
    otherwise. *)
Lemma project_vertex_triple (P O W : Vec3) :
  project_vertex (to_list O) (to_list W) (to_list P)
  = if divides X P O && divides Y P O
    then Ok [axis_value X P O W; axis_value Y P O W]
    else Raise ZeroDivisionError.
Proof.
  destruct P as [px py pz], O as [ox oy oz], W as [wx wy wz].
  unfold divides, axis_value, slope, project_vertex, to_list, coord.
  cbn [vx vy vz].
  rewrite !getitem_0, !getitem_1, !getitem_2. py_unfold. unfold truediv.
  destruct (ne px ox); cbn.
  - destruct (px - ox =? 0); cbn; [done|].
    destruct ((pz - oz) / (px - ox) =? 0); cbn; [done|].
    destruct (ne py oy); cbn; [|done].
    destruct (py - oy =? 0); cbn; [done|].
    by destruct ((pz - oz) / (py - oy) =? 0).
  - destruct (ne py oy); cbn; [|done].
    destruct (py - oy =? 0); cbn; [done|].
    by destruct ((pz - oz) / (py - oy) =? 0).
Qed.

(** ** The projection of a shape *)

Section window_projection.
Variables obs window_pos : list float.

(** The body of the loop over the vertices. *)
Local Notation body := (λ p : list float,
  p2 ← lift (project_vertex obs window_pos p);
  modify (λ s, set_verts_proj (verts_proj s ++ [p2]) s)).

Lemma projection_loop_ok (vs out : list (list float)) :
  Forall2 (λ p p2, project_vertex obs window_pos p = Ok p2) vs out →
  ∀ s, for_each vs body s = (set_verts_proj (verts_proj s ++ out) s, Ok tt).
Proof.
  induction 1 as [|p p2 vs out Hp _ IH]; intros s.
  - rewrite app_nil_r. by destruct s.
  - rewrite for_each_cons. py_unfold. rewrite Hp.
    rewrite IH. simpl. by rewrite <- app_assoc.
Qed.

Lemma projection_loop_completed (vs : list (list float)) (s s' : Shape) :
  for_each vs body s = (s', Ok tt) →
  ∃ out, Forall2 (λ p p2, project_vertex obs window_pos p = Ok p2) vs out.
Proof.
  intros Hrun.
  apply (for_each_completed
           (λ p, ∃ p2, project_vertex obs window_pos p = Ok p2)) in Hrun.
  - induction Hrun as [|p vs [p2 Hp] _ [out IH]]; [by exists []|].
    exists (p2 :: out). by constructor.
  - intros p t t'. py_unfold.
    destruct (project_vertex obs window_pos p) as [p2|]; [eauto|done].
Qed.

Lemma projection_loop_raised (vs : list (list float)) (s s' : Shape) (e : exn) :
  for_each vs body s = (s', Raise e) →
  ∃ p, p ∈ vs ∧ project_vertex obs window_pos p = Raise e.
Proof.
  revert s. induction vs as [|p vs IH]; intros s Hrun; [done|].
  rewrite for_each_cons in Hrun. py_unfold.
  destruct (project_vertex obs window_pos p) as [p2|e1] eqn:Hp.
  - destruct (IH _ Hrun) as (q & Hq & Hr). exists q. split; [by right|done].
  - injection Hrun as <- <-. exists p. split; [by left|done].
Qed.

Lemma window_projection_ok (s : Shape) (out : list (list float)) :
  Forall2 (λ p p2, project_vertex obs window_pos p = Ok p2) (verts s) out →
  window_projection obs window_pos s = (set_verts_proj out s, Ok tt).
Proof.
  intros H. unfold window_projection. py_unfold.
  change (for_each (verts (set_verts_proj [] s)) body (set_verts_proj [] s)
          = (set_verts_proj out s, Ok tt)).
  by rewrite (projection_loop_ok _ out).
Qed.

Lemma window_projection_completed (s s' : Shape) :
  window_projection obs window_pos s = (s', Ok tt) →
  Forall2 (λ p p2, project_vertex obs window_pos p = Ok p2)
    (verts s) (verts_proj s').
Proof.
  intros Hrun. pose proof Hrun as Hrun'.
  unfold window_projection in Hrun'. py_unfold.
  apply projection_loop_completed in Hrun' as [out Hout].
  rewrite (window_projection_ok s out Hout) in Hrun.
  by injection Hrun as <-.
Qed.

Lemma window_projection_raised (s s' : Shape) (e : exn) :
  window_projection obs window_pos s = (s', Raise e) →
  ∃ p, p ∈ verts s ∧ project_vertex obs window_pos p = Raise e.
Proof.
  unfold window_projection. py_unfold. apply projection_loop_raised.
Qed.

(** Only the projected cache of the shape is assigned to. *)
Lemma window_projection_frame (s : Shape) :
  verts (window_projection obs window_pos s).1 = verts s
  ∧ edges (window_projection obs window_pos s).1 = edges s.
Proof.
  unfold window_projection. py_unfold.
  apply (for_each_invariant (λ t, verts t = verts s ∧ edges t = edges s));
    [|done].
  intros p t Ht. py_unfold.
  by destruct (project_vertex obs window_pos p).
Qed.
End window_projection.

(** C1.  The formulas give no result for a vertex at the observer's depth and
    beside the observer.  Of the vertices [(1, 1, 1)] and [(1, 0, -1)], seen
    from [(0, 0, -1)] through the plane [z = 0], the first is projected to
    [(0.5, 0.5)]; for the second the guard [p[0] != obs[0]] passes, the slope
    [a0] is [0.0] and [1/a0] raises [ZeroDivisionError].  The projected list
    is left with one entry for two vertices, and none for the vertex [1]. *)
Theorem window_projection_short_cache :
  window_projection [0.0; 0.0; -1.0] [-0.5; -0.5; 0.0]
    (Shape__init__ (Some [[1.0; 1.0; 1.0]; [1.0; 0.0; -1.0]])
       (Some [[0; 1]%Z]))
  = (set_verts_proj [[0.5; 0.5]]
       (Shape__init__ (Some [[1.0; 1.0; 1.0]; [1.0; 0.0; -1.0]])
          (Some [[0; 1]%Z])),
     Raise ZeroDivisionError)
  ∧ length (verts (Shape__init__ (Some [[1.0; 1.0; 1.0]; [1.0; 0.0; -1.0]])
                     (Some [[0; 1]%Z]))) = 2%nat
  ∧ length (verts_proj
              (window_projection [0.0; 0.0; -1.0] [-0.5; -0.5; 0.0]
                 (Shape__init__ (Some [[1.0; 1.0; 1.0]; [1.0; 0.0; -1.0]])
                    (Some [[0; 1]%Z]))).1) = 1%nat
  ∧ verts_proj
      (window_projection [0.0; 0.0; -1.0] [-0.5; -0.5; 0.0]
         (Shape__init__ (Some [[1.0; 1.0; 1.0]; [1.0; 0.0; -1.0]])
            (Some [[0; 1]%Z]))).1 !! 1%nat = None.
Proof. repeat split; vm_compute; reflexivity. Qed.

(** The vertex [(1, 1, 4)] seen from [(0, 0, -1)] through the plane [z = 0]. *)
Example project_vertex_demo :
  project_vertex [0.0; 0.0; -1.0]
    [-0.5; -0.5; 0.0] [1; 1; 4]
  = Ok [0.2; 0.2].
Proof. vm_compute. reflexivity. Qed.

(** C2.  The vertex [(1, 0, -1)] lies at the observer's depth and beside the
    observer at [(0, 0, -1)]: the guard [p[0] != obs[0]] passes, the slope
    [a0] is [0], and [1/a0] raises [ZeroDivisionError]. *)
Theorem window_projection_zero_slope :
  window_projection [0.0; 0.0; -1.0]
    [-0.5; -0.5; 0.0]
    (Shape__init__ (Some [[1.0; 0.0; -1.0]]) (Some []))
  = (Shape__init__ (Some [[1.0; 0.0; -1.0]]) (Some []),
     Raise ZeroDivisionError).
Proof. vm_compute. reflexivity. Qed.

(** ** Translations *)

(** C3.  The projection moves with the observer.  [move_obs] by
    [d = (1, 0, 0)] takes the observer [(0, 0, -1)] and the plane origin
    [(-0.5, -0.5, 0)] of the demonstration to [(1, 0, -1)] and
    [(0.5, -0.5, 0)].  Against this translated pair the vertex [(3, 0, 3)]
    is projected to [(1.5, 0)], while the back-translated vertex [(2, 0, 3)]
    is projected to [(0.5, 0)] against the original pair: the two results
    differ by [d.x].  Every operation on these values is exact. *)
Theorem projection_moves_with_observer :
  obs (move_obs [1.0; 0.0; 0.0] Demo.eng).1 = [1.0; 0.0; -1.0]
  ∧ window_pos (move_obs [1.0; 0.0; 0.0] Demo.eng).1 = [0.5; -0.5; 0.0]
  ∧ window_projection [1.0; 0.0; -1.0] [0.5; -0.5; 0.0]
      (Shape__init__ (Some [[3.0; 0.0; 3.0]]) (Some []))
    = (set_verts_proj [[1.5; 0.0]]
         (Shape__init__ (Some [[3.0; 0.0; 3.0]]) (Some [])), Ok tt)
  ∧ window_projection [0.0; 0.0; -1.0] [-0.5; -0.5; 0.0]
      (Shape__init__ (Some [[2.0; 0.0; 3.0]]) (Some []))
    = (set_verts_proj [[0.5; 0.0]]
         (Shape__init__ (Some [[2.0; 0.0; 3.0]]) (Some [])), Ok tt)
  ∧ (1.5 =? 0.5) = false.
Proof. repeat split; vm_compute; reflexivity. Qed.

(** ** Dependence on the plane origin *)

(** C9.  The projection reads the plane origin only at its depth [W.z]: two
    plane origins of equal depth, whatever their [x] and [y], give the same
    projected coordinates (and the same outcome) on every shape and
    observer. *)
Theorem window_projection_plane_depth (obs : list float) (W1 W2 : Vec3)
    (s : Shape) :
  vz W1 = vz W2 →
  window_projection obs (to_list W1) s = window_projection obs (to_list W2) s.
Proof.
  intros Hz. unfold window_projection, project_vertex.
  destruct W1 as [x1 y1 z1], W2 as [x2 y2 z2]. simpl in Hz. subst z2.
  unfold to_list. cbn [vx vy vz]. by rewrite !getitem_2.
Qed.

Lemma window_projection_plane_depth_witness :
  window_projection [0; 0; -1]
    (to_list {| vx := -0.5; vy := -0.5; vz := 0 |})
    (Shape__init__ (Some [[1; 1; 4]; [1; 0; -1]]) (Some [[0; 1]%Z]))
  = window_projection [0; 0; -1]
      (to_list {| vx := 7; vy := 100; vz := 0 |})
      (Shape__init__ (Some [[1; 1; 4]; [1; 0; -1]]) (Some [[0; 1]%Z])).
Proof.
  apply (window_projection_plane_depth [0; 0; -1]
           {| vx := -0.5; vy := -0.5; vz := 0 |}
           {| vx := 7; vy := 100; vz := 0 |}).
  reflexivity.
Defined.

(** ** Rendering *)

Lemma for_objects_related {S} (R : S → S → Prop) (method : Py S unit)
    (l : list S) :
  (∀ o, R o o) →
  (∀ o, R o (method o).1) →
  Forall2 R l (for_objects l method).1.
Proof.
  intros Hrefl Hm. induction l as [|o l IH]; simpl; [constructor|].
  specialize (Hm o). destruct (method o) as [o' [[]|e]]; simpl in *.
  - destruct (for_objects l method) as [l' r]. simpl in *. by constructor.
  - constructor; [done|]. by apply Forall_Forall2_diag, Forall_true.
Qed.

Lemma for_objects_completed {S} (method : Py S unit) (l : list S) :
  (for_objects l method).2 = Ok tt →
  Forall2 (λ o o', method o = (o', Ok tt)) l (for_objects l method).1.
Proof.
  induction l as [|o l IH]; simpl; [constructor|].
  destruct (method o) as [o' [[]|e]] eqn:Ho; simpl; [|done].
  destruct (for_objects l method) as [l' r]. simpl in *.
  intros Hr. constructor; auto.
Qed.

(** C10.  [render] assigns to nothing but the projected caches: the
    observer, the plane origin, the viewport, the display surface and the
    handles are as before, the collection has the same shapes in the same
    order, each with the vertices and edges it had, whether or not an
    exception is raised.  When it returns, the cache of every shape holds
    the projection of each of its vertices under the current observer and
    plane origin, whatever it held before. *)
Theorem render_frame (e : Engine) :
  obs (render e).1 = obs e
  ∧ window_pos (render e).1 = window_pos e
  ∧ window_size (render e).1 = window_size e
  ∧ canvas_shape (render e).1 = canvas_shape e
  ∧ canvas (render e).1 = canvas e
  ∧ root (render e).1 = root e
  ∧ canvas_id (render e).1 = canvas_id e
  ∧ Forall2 (λ s s', verts s' = verts s ∧ edges s' = edges s)
      (shapes e) (shapes (render e).1)
  ∧ ((render e).2 = Ok tt →
     Forall2 (λ s s',
         Forall2 (λ p p2, project_vertex (obs e) (window_pos e) p = Ok p2)
           (verts s) (verts_proj s'))
       (shapes e) (shapes (render e).1)).
Proof.
  unfold render.
  pose proof (for_objects_related
                (λ s s', verts s' = verts s ∧ edges s' = edges s)
                (window_projection (obs e) (window_pos e)) (shapes e)) as Hfr.
  pose proof (for_objects_completed
                (window_projection (obs e) (window_pos e)) (shapes e)) as Hok.
  destruct (for_objects (shapes e) _) as [ss r]. simpl in *.
  repeat (split; [done|]). split.
  - apply Hfr; [done|]. apply window_projection_frame.
  - intros Hr. eapply Forall2_impl; [by apply Hok|].
    intros s s' Hs. by apply window_projection_completed.
Qed.

(** ** Properties kept by procedures *)


Lemma preserves_lift {S A} (I : S → Prop) (r : result A) :
  preserves I (lift r : Py S A).
Proof. by intros s. Qed.

Lemma preserves_gets {S A} (I : S → Prop) (f : S → A) : preserves I (gets f).
Proof. by intros s. Qed.

Lemma preserves_modify {S} (I : S → Prop) (f : S → S) :
  (∀ s, I s → I (f s)) → preserves I (modify f).
Proof. intros H s. apply H. Qed.

Lemma preserves_bind {S A B} (I : S → Prop) (m : Py S A) (f : A → Py S B) :
  preserves I m → (∀ a, preserves I (f a)) → preserves I (m ≫= f).
Proof.
  intros Hm Hf s Hs. py_unfold. specialize (Hm s Hs).
  destruct (m s) as [s' [a|e]]; simpl in *; [by apply Hf|done].
Qed.

Lemma preserves_for_each {S A} (I : S → Prop) (l : list A)
    (body : A → Py S unit) :
  (∀ x, preserves I (body x)) → preserves I (for_each l body).
Proof. intros H s. apply for_each_invariant. intros x. apply H. Qed.

(** [draw] assigns to the display surface and to the handles only. *)
Lemma draw_preserves (I : Engine → Prop) :
  (∀ c e, I e → I (set_canvas c e)) →
  (∀ ids e, I e → I (set_canvas_id ids e)) →
  preserves I draw.
Proof.
  intros Hc Hid. unfold draw, draw_edge.
  repeat first
    [ apply preserves_bind | intros ? | apply preserves_for_each
    | apply preserves_gets | apply preserves_lift | apply preserves_modify ];
    auto.
  unfold Tk.create_line. simpl. auto.
Qed.

Lemma render_preserves (I : Engine → Prop) :
  (∀ ss e, I e → I (set_shapes ss e)) → preserves I render.
Proof.
  intros Hs e He. unfold render. destruct (for_objects _ _). simpl. auto.
Qed.


(** ** Moving the observer *)










(** ** The tick *)

Lemma render_viewport (e : Engine) : canvas_shape (render e).1 = canvas_shape e.
Proof. by apply (render_preserves (λ e', canvas_shape e' = canvas_shape e)). Qed.

Lemma draw_viewport (e : Engine) : canvas_shape (draw e).1 = canvas_shape e.
Proof. by apply (draw_preserves (λ e', canvas_shape e' = canvas_shape e)). Qed.

(** C7, as the code has it.  A tick first runs the callback, if there is one,
    on the state it is entered in: the callback sees the viewport size stored
    by the previous tick.  If the callback raises, nothing else is done.
    Otherwise the stored viewport size is refreshed from the display surface
    as the callback left it, then every shape is projected, then the
    segments are emitted and the next tick is requested; the viewport size
    used for emission is the one read after the callback has run. *)
Theorem update_order (func : option (Py Engine unit)) (e e1 : Engine)
    (r1 : result unit) :
  callback func e = (e1, r1) →
  (∀ x, r1 = Raise x → update func e = (e1, Raise x))
  ∧ (r1 = Ok tt →
     update func e
     = (render ;; draw ;; modify (λ e, set_root (Tk.after 30 (root e)) e))
         (refresh_viewport e1)
     ∧ canvas_shape (update func e).1
       = [Tk.winfo_width (canvas e1); Tk.winfo_height (canvas e1)]).
Proof.
  intros Hcb.
  assert (update func e
          = match callback func e with
            | (e1, Ok _) =>
                (render ;; draw ;;
                 modify (λ e, set_root (Tk.after 30 (root e)) e))
                  (refresh_viewport e1)
            | (e1, Raise x) => (e1, Raise x)
            end) as Hrun.
  { unfold update, callback. py_unfold. by destruct func. }
  rewrite Hcb in Hrun. split.
  - by intros x ->.
  - intros ->. split; [done|]. rewrite Hrun. py_unfold.
    pose proof (render_viewport (refresh_viewport e1)) as Hr.
    destruct (render (refresh_viewport e1)) as [e2 [[]|x]]; simpl in *;
      [|done].
    pose proof (draw_viewport e2) as Hd.
    destruct (draw e2) as [e3 [[]|x]]; simpl in *; congruence.
Qed.

Lemma update_order_witness :
  (∀ x, Ok tt = Raise x →
        update (Some (Demo.resize 800 600)) Demo.eng
        = ((Demo.resize 800 600 Demo.eng).1, Raise x))
  ∧ (Ok tt = Ok tt →
     update (Some (Demo.resize 800 600)) Demo.eng
     = (render ;; draw ;; modify (λ e, set_root (Tk.after 30 (root e)) e))
         (refresh_viewport (Demo.resize 800 600 Demo.eng).1)
     ∧ canvas_shape (update (Some (Demo.resize 800 600)) Demo.eng).1
       = [Tk.winfo_width (canvas (Demo.resize 800 600 Demo.eng).1);
          Tk.winfo_height (canvas (Demo.resize 800 600 Demo.eng).1)]).
Proof.
  apply (update_order (Some (Demo.resize 800 600)) Demo.eng
           (Demo.resize 800 600 Demo.eng).1 (Ok tt)).
  reflexivity.
Defined.

(** C7, as stated, fails.  On the first tick of the demonstration engine a
    callback that moves the observer by the stored viewport width reads the
    width [0] stored at construction and leaves the observer in place; in the
    order of the specification it would read the refreshed width [600].  And
    when the callback resizes the window from 600x500 to 800x600, the tick
    emits with the 800x600 it reads after the callback, where the order of
    the specification would emit with the 600x500 read before it. *)
Lemma update_not_as_specified :
  (obs (update (Some Demo.stride) Demo.eng).1 = [0; 0; -1]
   ∧ obs (tick_as_specified (Some Demo.stride) Demo.eng).1
     = [600; 0; -1]
   ∧ update (Some Demo.stride) Demo.eng
     ≠ tick_as_specified (Some Demo.stride) Demo.eng)
  ∧ (canvas_shape (update (Some (Demo.resize 800 600)) Demo.eng).1
     = [800; 600]%Z
     ∧ canvas_shape
         (tick_as_specified (Some (Demo.resize 800 600)) Demo.eng).1
       = [600; 500]%Z).
Proof.
  assert (obs (update (Some Demo.stride) Demo.eng).1 = [0; 0; -1]) as Hcode
    by (vm_compute; reflexivity).
  assert (obs (tick_as_specified (Some Demo.stride) Demo.eng).1
          = [600; 0; -1]) as Hspec
    by (vm_compute; reflexivity).
  split; [split; [exact Hcode|split; [exact Hspec|]] | split].
  - intros H. rewrite H, Hspec in Hcode.
    apply (f_equal (λ l, (λ x, x =? 0) <$> l)) in Hcode.
    vm_compute in Hcode. discriminate Hcode.
  - vm_compute. reflexivity.
  - vm_compute. reflexivity.
Qed.

(** ** Drawing *)

Lemma truediv_2 (x : float) : truediv x 2 = Ok (x / 2).
Proof. reflexivity. Qed.

(** One step through the reads and divisions of the loop body. *)
Ltac draw_edge_step :=
  first
    [ rewrite !truediv_2
    | match goal with
      | |- context [match getitem ?l ?i with _ => _ end] =>
          let H := fresh "Hget" in
          destruct (getitem l i) eqn:H;
          [|try (apply getitem_raises in H; congruence)]
      end ].

Lemma draw_edge_segment (s : Shape) (edge : list Z) (e : Engine) :
  draw_edge s edge e
  = match edge_segment (canvas_shape e) (verts_proj s) edge with
    | Ok seg => (emit e seg, Ok tt)
    | Raise x => (e, Raise x)
    end.
Proof.
  unfold draw_edge, edge_segment. py_unfold.
  repeat (draw_edge_step; try done).
Qed.



Lemma emit_viewport (e : Engine) (seg : Tk.segment) :
  canvas_shape (emit e seg) = canvas_shape e.
Proof. by destruct seg as [[[??]?]?]. Qed.

Lemma emit_drawn (e : Engine) (seg : Tk.segment) :
  Tk.drawn (canvas (emit e seg)) = Tk.drawn (canvas e) ++ [seg].
Proof.
  destruct seg as [[[??]?]?]. unfold Tk.drawn. simpl. by rewrite fmap_app.
Qed.

Lemma emit_all_viewport (segs : list Tk.segment) (e : Engine) :
  canvas_shape (foldl emit e segs) = canvas_shape e.
Proof.
  revert e. induction segs as [|seg segs IH]; intros e; [done|].
  simpl. by rewrite IH, emit_viewport.
Qed.

Lemma emit_all_drawn (segs : list Tk.segment) (e : Engine) :
  Tk.drawn (canvas (foldl emit e segs)) = Tk.drawn (canvas e) ++ segs.
Proof.
  revert e. induction segs as [|seg segs IH]; intros e; simpl.
  - by rewrite app_nil_r.
  - by rewrite IH, emit_drawn, <- app_assoc.
Qed.



Lemma delete_loop (ids : list Z) (e : Engine) :
  for_each ids (λ cid, modify (λ e, set_canvas (Tk.delete cid (canvas e)) e)) e
  = (set_canvas (foldl (λ c cid, Tk.delete cid c) (canvas e) ids) e, Ok tt).
Proof.
  revert e. induction ids as [|cid ids IH]; intros e.
  - by destruct e.
  - rewrite for_each_cons. py_unfold. by rewrite IH.
Qed.

(** [draw] from the state in which the old segments are removed. *)
Lemma draw_run (e : Engine) :
  draw e
  = for_each (shapes e) (λ s, for_each (edges s) (draw_edge s))
      (set_canvas_id [] (set_canvas (cleared e) e)).
Proof.
  unfold draw. py_unfold. by rewrite delete_loop.
Qed.




(** The translation that centres a viewport of 600x500. *)
Example to_pixel_origin_600x500 : to_pixel 600 500 (0, 0) = (300, 250).
Proof. vm_compute. reflexivity. Qed.

(** ** Subscripts of edges *)




(** ** The cube *)

Lemma Square_run (cx cy cz s : float) :
  Square (Some [cx; cy; cz]) s
  = Ok {| verts :=
            [[-1 * (s / 2) + cx; -1 * (s / 2) + cy; -1 * (s / 2) + cz];
             [1 * (s / 2) + cx; -1 * (s / 2) + cy; -1 * (s / 2) + cz];
             [1 * (s / 2) + cx; 1 * (s / 2) + cy; -1 * (s / 2) + cz];
             [-1 * (s / 2) + cx; 1 * (s / 2) + cy; -1 * (s / 2) + cz];
             [-1 * (s / 2) + cx; -1 * (s / 2) + cy; 1 * (s / 2) + cz];
             [1 * (s / 2) + cx; -1 * (s / 2) + cy; 1 * (s / 2) + cz];
             [1 * (s / 2) + cx; 1 * (s / 2) + cy; 1 * (s / 2) + cz];
             [-1 * (s / 2) + cx; 1 * (s / 2) + cy; 1 * (s / 2) + cz]];
          edges :=
            [[0; 1]; [1; 2]; [2; 3]; [3; 0]; [4; 5]; [5; 6]; [6; 7]; [7; 4];
             [0; 4]; [1; 5]; [2; 6]; [3; 7]]%Z;
          verts_proj := [] |}.
Proof. reflexivity. Qed.

Lemma corner_computed (c : Vec3) (s : float) (σ : bool * bool * bool) :
  [side σ.1.1 * (s / 2) + vx c; side σ.1.2 * (s / 2) + vy c;
   side σ.2 * (s / 2) + vz c]
  = corner c s σ.
Proof.
  unfold corner. f_equal; [apply float_add_comm|].
  f_equal; [apply float_add_comm|]. f_equal. apply float_add_comm.
Qed.

Lemma Square_corners (c : Vec3) (s : float) :
  verts <$> Square (Some (to_list c)) s = Ok (corner c s <$> cube_sides).
Proof.
  destruct c as [cx cy cz]. unfold to_list. cbn [vx vy vz].
  rewrite Square_run. unfold cube_sides. cbn [fmap result_fmap list_fmap verts].
  rewrite <- !corner_computed. reflexivity.
Qed.

Lemma rtc_symmetric {A} (R : relation A) (x y : A) :
  (∀ a b, R a b → R b a) → rtc R x y → rtc R y x.
Proof.
  intros Hsym. induction 1 as [|a b c Hab _ IH]; [done|].
  eapply rtc_r; [exact IH|]. by apply Hsym.
Qed.

Lemma adjacent_symmetric (es : list (list Z)) (i j : Z) :
  adjacent es i j → adjacent es j i.
Proof. unfold adjacent. tauto. Qed.

Lemma cube_sides_all (σ : bool * bool * bool) : σ ∈ cube_sides.
Proof. destruct σ as [[[] []] []]; decide_by_evaluation. Qed.

(** The edge list of [Square]. *)
Section cube_edges.
Local Notation es :=
  ([[0; 1]; [1; 2]; [2; 3]; [3; 0]; [4; 5]; [5; 6]; [6; 7]; [7; 4];
    [0; 4]; [1; 5]; [2; 6]; [3; 7]]%Z : list (list Z)).

Lemma cube_edges_adjacent (i j : nat) (σ τ : bool * bool * bool) :
  cube_sides !! i = Some σ → cube_sides !! j = Some τ →
  adjacent es (Z.of_nat i) (Z.of_nat j) ↔ one_axis_apart σ τ.
Proof.
  intros Hi Hj.
  pose proof (lookup_lt_Some _ _ _ Hi) as Hli.
  pose proof (lookup_lt_Some _ _ _ Hj) as Hlj.
  simpl in Hli, Hlj.
  assert (i = 0 ∨ i = 1 ∨ i = 2 ∨ i = 3 ∨ i = 4 ∨ i = 5 ∨ i = 6 ∨ i = 7)%nat
    as Hci by lia.
  assert (j = 0 ∨ j = 1 ∨ j = 2 ∨ j = 3 ∨ j = 4 ∨ j = 5 ∨ j = 6 ∨ j = 7)%nat
    as Hcj by lia.
  destruct Hci as [->|[->|[->|[->|[->|[->|[->| ->]]]]]]];
    destruct Hcj as [->|[->|[->|[->|[->|[->|[->| ->]]]]]]];
    injection Hi as <-; injection Hj as <-;
    unfold adjacent, one_axis_apart; decide_by_evaluation.
Qed.

Lemma cube_edges_connected : connected 8 es.
Proof.
  assert (∀ i, (0 ≤ i < 8)%Z → rtc (adjacent es) 0%Z i) as Hfrom0.
  { assert (∀ i j, rtc (adjacent es) 0%Z i → [i; j] ∈ es →
                   rtc (adjacent es) 0%Z j) as Hstep.
    { intros i j Hi Hij. eapply rtc_r; [exact Hi|]. by left. }
    assert (rtc (adjacent es) 0 1)%Z as H1
      by (apply (Hstep 0%Z); [done | decide_by_evaluation]).
    assert (rtc (adjacent es) 0 2)%Z as H2
      by (apply (Hstep 1%Z); [done | decide_by_evaluation]).
    assert (rtc (adjacent es) 0 3)%Z as H3
      by (apply (Hstep 2%Z); [done | decide_by_evaluation]).
    assert (rtc (adjacent es) 0 4)%Z as H4
      by (apply (Hstep 0%Z); [done | decide_by_evaluation]).
    assert (rtc (adjacent es) 0 5)%Z as H5
      by (apply (Hstep 4%Z); [done | decide_by_evaluation]).
    assert (rtc (adjacent es) 0 6)%Z as H6
      by (apply (Hstep 5%Z); [done | decide_by_evaluation]).
    assert (rtc (adjacent es) 0 7)%Z as H7
      by (apply (Hstep 6%Z); [done | decide_by_evaluation]).
    intros i Hi.
    assert (i = 0 ∨ i = 1 ∨ i = 2 ∨ i = 3 ∨ i = 4 ∨ i = 5 ∨ i = 6 ∨ i = 7)%Z
      as Hcases by lia.
    destruct Hcases as [->|[->|[->|[->|[->|[->|[->| ->]]]]]]]; done. }
  intros i j Hi Hj. etrans; [|by apply Hfrom0].
  apply rtc_symmetric; [apply adjacent_symmetric | by apply Hfrom0].
Qed.

Lemma cube_edges_degree (i : Z) : (0 ≤ i < 8)%Z → degree es i = 3%nat.
Proof.
  intros Hi.
  assert (i = 0 ∨ i = 1 ∨ i = 2 ∨ i = 3 ∨ i = 4 ∨ i = 5 ∨ i = 6 ∨ i = 7)%Z
    as Hcases by lia.
  destruct Hcases as [->|[->|[->|[->|[->|[->|[->| ->]]]]]]]; by vm_compute.
Qed.
End cube_edges.

(** C4.  For every center [c] and edge length [s], [Square] returns a shape
    of exactly 8 vertices, the corners [c ± s/2] along each axis, each corner
    once, and of exactly 12 edges, each joining two of the vertices, where
    two vertices are joined exactly when their corners differ along one
    axis: 4 edges on the front face, 4 on the back face and 4 from one face
    to the other.  The edge graph is connected and every vertex has degree
    3.  For the center [(0, 0, 0)] and the size [2] the vertices are the
    eight points [(±1, ±1, ±1)]. *)
Theorem Square_cube (c : Vec3) (s : float) :
  ∃ sh,
    Square (Some (to_list c)) s = Ok sh
    ∧ length (verts sh) = 8%nat
    ∧ verts sh = corner c s <$> cube_sides
    ∧ (∀ σ, corner c s σ ∈ verts sh)
    ∧ NoDup cube_sides
    ∧ length (edges sh) = 12%nat
    ∧ Forall (λ edge, length edge = 2%nat ∧ Forall (λ i, 0 ≤ i < 8)%Z edge)
        (edges sh)
    ∧ (∀ (i j : nat) σ τ,
         cube_sides !! i = Some σ → cube_sides !! j = Some τ →
         adjacent (edges sh) (Z.of_nat i) (Z.of_nat j) ↔ one_axis_apart σ τ)
    ∧ length (front_edges cube_sides (edges sh)) = 4%nat
    ∧ length (back_edges cube_sides (edges sh)) = 4%nat
    ∧ length (connecting_edges cube_sides (edges sh)) = 4%nat
    ∧ connected 8 (edges sh)
    ∧ (∀ i, (0 ≤ i < 8)%Z → degree (edges sh) i = 3%nat)
    ∧ (c = {| vx := 0; vy := 0; vz := 0 |} → s = 2 →
       verts sh
       = [[-1; -1; -1]; [1; -1; -1]; [1; 1; -1]; [-1; 1; -1];
          [-1; -1; 1]; [1; -1; 1]; [1; 1; 1]; [-1; 1; 1]]).
Proof.
  pose proof (Square_corners c s) as Hcorners.
  destruct c as [cx cy cz]. unfold to_list in *. cbn [vx vy vz] in *.
  rewrite Square_run in *. eexists. split; [reflexivity|].
  apply (f_equal (λ r, match r with Ok v => v | Raise _ => [] end))
    in Hcorners.
  cbn [fmap result_fmap verts edges] in *.
  split; [done|]. split; [exact Hcorners|]. split.
  { intros σ. rewrite Hcorners. apply list_elem_of_fmap_2, cube_sides_all. }
  split; [decide_by_evaluation|]. split; [done|].
  split; [decide_by_evaluation|].
  split; [apply cube_edges_adjacent|].
  split; [by vm_compute|]. split; [by vm_compute|]. split; [by vm_compute|].
  split; [apply cube_edges_connected|].
  split; [apply cube_edges_degree|].
  intros [= -> -> ->] ->. vm_compute. reflexivity.
Qed.

(** ** The sample scenes *)



(** The cube of the sample scene is drawn as 12 segments. *)
Example draw_cube_segments :
  (draw (Demo.scene Demo.cube)).2 = Ok tt
  ∧ length (Tk.drawn (canvas (draw (Demo.scene Demo.cube)).1)) = 12%nat.
Proof. split; by vm_compute. Qed.


(** * Further properties of the code *)


(** ** The projected cache *)

Lemma for_each_app {S A} (l1 l2 : list A) (body : A → Py S unit) (s : S) :
  for_each (l1 ++ l2) body s
  = match for_each l1 body s with
    | (s', Ok _) => for_each l2 body s'
    | (s', Raise x) => (s', Raise x)
    end.
Proof.
  revert s. induction l1 as [|a l1 IH]; intros s; [done|].
  simpl app. rewrite !for_each_cons.
  destruct (body a s) as [s1 [[]|x]]; [apply IH | done].
Qed.

(** X4.  When the projection of a vertex raises, [window_projection] raises
    the same exception and leaves in the cache the projections of the
    vertices before it: a cache shorter than the vertex list. *)
Theorem window_projection_partial (obs window_pos : list float) (s : Shape)
    (pre post out : list (list float)) (p : list float) (x : exn) :
  verts s = pre ++ p :: post →
  Forall2 (λ q q2, project_vertex obs window_pos q = Ok q2) pre out →
  project_vertex obs window_pos p = Raise x →
  window_projection obs window_pos s = (set_verts_proj out s, Raise x)
  ∧ (length (verts_proj (set_verts_proj out s)) < length (verts s))%nat.
Proof.
  intros Hvs Hpre Hp. split.
  - unfold window_projection. py_unfold. cbn [verts set_verts_proj].
    rewrite Hvs, for_each_app.
    rewrite (projection_loop_ok obs window_pos pre out Hpre).
    rewrite for_each_cons. py_unfold. rewrite Hp. by destruct s.
  - simpl. rewrite Hvs, length_app. simpl.
    apply Forall2_length in Hpre. lia.
Qed.

Lemma window_projection_partial_witness :
  window_projection [0; 0; -1] [-0.5; -0.5; 0]
    (Shape__init__ (Some [[1; 1; 4]; [1; 0; -1]; [2; 2; 4]])
       (Some []))
  = (set_verts_proj [[0.2; 0.2]]
       (Shape__init__
          (Some [[1; 1; 4]; [1; 0; -1]; [2; 2; 4]])
          (Some [])),
     Raise ZeroDivisionError)
  ∧ lt (length (verts_proj
                  (set_verts_proj [[0.2; 0.2]]
                     (Shape__init__
                        (Some [[1; 1; 4]; [1; 0; -1];
                               [2; 2; 4]])
                        (Some [])))))
       (length (verts
                  (Shape__init__
                     (Some [[1; 1; 4]; [1; 0; -1];
                            [2; 2; 4]])
                     (Some [])))).
Proof.
  apply (window_projection_partial [0; 0; -1] [-0.5; -0.5; 0]
           (Shape__init__
              (Some [[1; 1; 4]; [1; 0; -1]; [2; 2; 4]])
              (Some []))
           [[1; 1; 4]] [[2; 2; 4]] [[0.2; 0.2]]
           [1; 0; -1] ZeroDivisionError).
  - reflexivity.
  - constructor; [vm_compute; reflexivity | constructor].
  - vm_compute. reflexivity.
Defined.

Lemma window_projection_again (obs window_pos : list float) (s : Shape) :
  window_projection obs window_pos (window_projection obs window_pos s).1
  = window_projection obs window_pos s.
Proof.
  destruct (window_projection_frame obs window_pos s) as [Hv He].
  destruct (window_projection obs window_pos s) as [s' r] eqn:Hrun.
  simpl in *. rewrite <- Hrun.
  assert (set_verts_proj [] s' = set_verts_proj [] s) as Hreset
    by (unfold set_verts_proj; by rewrite Hv, He).
  unfold window_projection. py_unfold. by rewrite Hreset.
Qed.

Lemma for_objects_again {S} (method : Py S unit) (l : list S) :
  (∀ o, method (method o).1 = method o) →
  for_objects (for_objects l method).1 method = for_objects l method.
Proof.
  intros Hm. induction l as [|o l IH]; [done|].
  simpl. pose proof (Hm o) as Ho.
  destruct (method o) as [o' [[]|x]] eqn:Hrun; simpl in *.
  - destruct (for_objects l method) as [l' r] eqn:Hl. simpl in *.
    by rewrite Ho, IH.
  - by rewrite Ho.
Qed.

Lemma render_observer (e : Engine) :
  obs (render e).1 = obs e ∧ window_pos (render e).1 = window_pos e.
Proof.
  by apply (render_preserves
              (λ e', obs e' = obs e ∧ window_pos e' = window_pos e)).
Qed.

(** X5.  Rendering again, with nothing changed in between, changes nothing:
    the caches are recomputed from the vertices, not updated from their old
    contents, and rendering raises again if it raised. *)
Theorem render_idempotent (e : Engine) : render (render e).1 = render e.
Proof.
  destruct (render_observer e) as [Ho Hw].
  unfold render in *.
  pose proof (for_objects_again
                (window_projection (obs e) (window_pos e)) (shapes e)
                (window_projection_again (obs e) (window_pos e))) as Hagain.
  destruct (for_objects (shapes e) _) as [ss r]. simpl in *.
  rewrite Hagain. by destruct e.
Qed.

(** ** What [draw] submits *)

Lemma draw_edges_run (s : Shape) (es : list (list Z)) (e : Engine) :
  for_each es (draw_edge s) e
  = (foldl emit e (edge_segments (canvas_shape e) (verts_proj s) es).1,
     (edge_segments (canvas_shape e) (verts_proj s) es).2).
Proof.
  revert e. induction es as [|edge es IH]; intros e; [done|].
  rewrite for_each_cons, draw_edge_segment. simpl.
  destruct (edge_segment (canvas_shape e) (verts_proj s) edge) as [seg|x];
    [|done].
  rewrite IH, emit_viewport.
  by destruct (edge_segments (canvas_shape e) (verts_proj s) es).
Qed.

Lemma draw_shapes_run (ss : list Shape) (e : Engine) :
  for_each ss (λ s, for_each (edges s) (draw_edge s)) e
  = (foldl emit e (shape_segments (canvas_shape e) ss).1,
     (shape_segments (canvas_shape e) ss).2).
Proof.
  revert e. induction ss as [|s ss IH]; intros e; [done|].
  rewrite for_each_cons, draw_edges_run. simpl.
  destruct (edge_segments (canvas_shape e) (verts_proj s) (edges s))
    as [segs [[]|x]]; simpl; [|done].
  rewrite IH, emit_all_viewport.
  destruct (shape_segments (canvas_shape e) ss) as [segs' r]. simpl.
  by rewrite foldl_app.
Qed.

Lemma draw_segments (e : Engine) :
  draw e
  = (foldl emit (set_canvas_id [] (set_canvas (cleared e) e))
       (shape_segments (canvas_shape e) (shapes e)).1,
     (shape_segments (canvas_shape e) (shapes e)).2).
Proof. by rewrite draw_run, draw_shapes_run. Qed.

Lemma emit_all_shapes (segs : list Tk.segment) (e : Engine) :
  shapes (foldl emit e segs) = shapes e.
Proof.
  revert e. induction segs as [|seg segs IH]; intros e; [done|].
  simpl. rewrite IH. by destruct seg as [[[??]?]?].
Qed.

Lemma emit_all_tracked (segs : list Tk.segment) (e : Engine) :
  tracked e → tracked (foldl emit e segs).
Proof.
  revert e. induction segs as [|seg segs IH]; intros e He; [done|].
  simpl. apply IH. destruct seg as [[[??]?]?].
  unfold tracked in *. simpl. by rewrite fmap_app, He.
Qed.

Lemma delete_all_tracked (ids : list Z) (c : Tk.Canvas) :
  Forall (λ it, it.1 ∈ ids) (Tk.items c) →
  Tk.items (foldl (λ c cid, Tk.delete cid c) c ids) = [].
Proof.
  revert c. induction ids as [|cid ids IH]; intros c Hc.
  - simpl. destruct (Tk.items c) as [|it its]; [done|].
    apply Forall_cons in Hc as [Hit _]. by apply elem_of_nil in Hit.
  - simpl. apply IH. simpl. apply Forall_forall. intros it Hit.
    apply list_elem_of_filter in Hit as [Hne Hit].
    rewrite Forall_forall in Hc. specialize (Hc it Hit).
    apply elem_of_cons in Hc as [Heq|Hin]; [done|done].
Qed.

Lemma cleared_tracked (e : Engine) : tracked e → Tk.items (cleared e) = [].
Proof.
  intros He. apply delete_all_tracked. unfold tracked in He.
  rewrite <- He. apply Forall_forall. intros it Hit.
  by apply list_elem_of_fmap_2.
Qed.

Lemma draw_state (e : Engine) :
  tracked e →
  tracked (draw e).1
  ∧ Tk.drawn (canvas (draw e).1)
    = (shape_segments (canvas_shape e) (shapes e)).1
  ∧ canvas_shape (draw e).1 = canvas_shape e
  ∧ shapes (draw e).1 = shapes e.
Proof.
  intros He. rewrite draw_segments. simpl.
  assert (tracked (set_canvas_id [] (set_canvas (cleared e) e))) as H0.
  { unfold tracked. simpl. by rewrite cleared_tracked. }
  split; [by apply emit_all_tracked|].
  split; [|split].
  - rewrite emit_all_drawn. unfold Tk.drawn. simpl.
    by rewrite cleared_tracked.
  - by rewrite emit_all_viewport.
  - by rewrite emit_all_shapes.
Qed.

(** X7.  When the engine holds the handles of the segments on the display
    surface, [draw] leaves on it the segments of this call and no other, and
    holds their handles; drawing again right away gives the same outcome and
    the same segments: nothing accumulates. *)
Theorem draw_redraw (e : Engine) :
  tracked e →
  tracked (draw e).1
  ∧ Tk.drawn (canvas (draw e).1)
    = (shape_segments (canvas_shape e) (shapes e)).1
  ∧ (draw (draw e).1).2 = (draw e).2
  ∧ Tk.drawn (canvas (draw (draw e).1).1) = Tk.drawn (canvas (draw e).1).
Proof.
  intros He.
  destruct (draw_state e He) as (Ht & Hd & Hcs & Hss).
  destruct (draw_state (draw e).1 Ht) as (_ & Hd' & _ & _).
  split; [done|]. split; [done|]. split.
  - rewrite (draw_segments (draw e).1). cbn [snd]. rewrite Hcs, Hss.
    by rewrite (draw_segments e).
  - by rewrite Hd', Hd, Hcs, Hss.
Qed.

Lemma draw_redraw_witness :
  tracked (draw (Demo.scene Demo.cube)).1
  ∧ Tk.drawn (canvas (draw (Demo.scene Demo.cube)).1)
    = (shape_segments (canvas_shape (Demo.scene Demo.cube))
         (shapes (Demo.scene Demo.cube))).1
  ∧ (draw (draw (Demo.scene Demo.cube)).1).2 = (draw (Demo.scene Demo.cube)).2
  ∧ Tk.drawn (canvas (draw (draw (Demo.scene Demo.cube)).1).1)
    = Tk.drawn (canvas (draw (Demo.scene Demo.cube)).1).
Proof.
  apply (draw_redraw (Demo.scene Demo.cube)). reflexivity.
Defined.

(** ** Drawing and the projected cache *)




Lemma setitem_0 {A} (a v : A) (l : list A) :
  setitem (a :: l) 0 v = Ok (v :: l).
Proof. unfold setitem. rewrite position_nonneg; [done | simpl; lia]. Qed.

Lemma setitem_1 {A} (a b v : A) (l : list A) :
  setitem (a :: b :: l) 1 v = Ok (a :: v :: l).
Proof. unfold setitem. rewrite position_nonneg; [done | simpl; lia]. Qed.

Lemma project_vertex_length (obs window_pos p r : list float) :
  project_vertex obs window_pos p = Ok r → length r = 2%nat.
Proof.
  unfold project_vertex. py_unfold. intros H.
  repeat (cbv beta iota zeta in H;
          match type of H with
          | context [match getitem ?l ?i with _ => _ end] =>
              destruct (getitem l i); try discriminate H
          | context [match truediv ?a ?b with _ => _ end] =>
              destruct (truediv a b); try discriminate H
          | context [if ne ?x ?y then _ else _] =>
              destruct (ne x y)
          | context [setitem (_ :: _) 0 _] => rewrite setitem_0 in H
          | context [setitem (_ :: _ :: _) 1 _] => rewrite setitem_1 in H
          end).
  all: cbv beta iota zeta in H;
    first [discriminate H | by injection H as <-].
Qed.

Lemma window_projection_cache (obs window_pos : list float) (s s' : Shape) :
  window_projection obs window_pos s = (s', Ok tt) →
  length (verts_proj s') = length (verts s)
  ∧ Forall (λ p, length p = 2%nat) (verts_proj s').
Proof.
  intros Hrun. apply window_projection_completed in Hrun.
  split; [symmetry; by eapply Forall2_length|].
  induction Hrun as [|p p2 vs out Hp _ IH]; constructor; [|done].
  by eapply project_vertex_length.
Qed.

(** X9.  When [render] returns, every shape has its vertices and edges as
    before and a cache with one entry per vertex, each entry a pair of
    coordinates. *)
Theorem render_cache_shape (e : Engine) :
  (render e).2 = Ok tt →
  Forall2 (λ s s',
      verts s' = verts s ∧ edges s' = edges s
      ∧ length (verts_proj s') = length (verts s)
      ∧ Forall (λ p, length p = 2%nat) (verts_proj s'))
    (shapes e) (shapes (render e).1).
Proof.
  unfold render.
  pose proof (for_objects_completed
                (window_projection (obs e) (window_pos e)) (shapes e)) as Hok.
  destruct (for_objects (shapes e) _) as [ss r]. simpl in *.
  intros Hr. eapply Forall2_impl; [by apply Hok|].
  intros s s' Hs. simpl.
  pose proof (window_projection_frame (obs e) (window_pos e) s) as Hfr.
  rewrite Hs in Hfr. destruct Hfr as [Hv He].
  destruct (window_projection_cache _ _ _ _ Hs) as [Hlen Hpairs].
  done.
Qed.

Lemma render_cache_shape_witness :
  Forall2 (λ s s',
      verts s' = verts s ∧ edges s' = edges s
      ∧ length (verts_proj s') = length (verts s)
      ∧ Forall (λ p, length p = 2%nat) (verts_proj s'))
    (shapes (add_shape Demo.cube Demo.eng).1)
    (shapes (render (add_shape Demo.cube Demo.eng).1).1).
Proof.
  apply (render_cache_shape (add_shape Demo.cube Demo.eng).1).
  vm_compute. reflexivity.
Defined.







Lemma render_surface (e : Engine) :
  canvas (render e).1 = canvas e ∧ canvas_id (render e).1 = canvas_id e
  ∧ root (render e).1 = root e.
Proof.
  by apply (render_preserves
              (λ e', canvas e' = canvas e ∧ canvas_id e' = canvas_id e
                     ∧ root e' = root e)).
Qed.

Lemma draw_root (e : Engine) : root (draw e).1 = root e.
Proof. by apply (draw_preserves (λ e', root e' = root e)). Qed.







Lemma update_run (func : option (Py Engine unit)) (e : Engine) :
  update func e
  = match callback func e with
    | (e1, Ok _) =>
        match render (refresh_viewport e1) with
        | (e2, Ok _) =>
            match draw e2 with
            | (e3, Ok _) => (set_root (Tk.after 30 (root e3)) e3, Ok tt)
            | (e3, Raise x) => (e3, Raise x)
            end
        | (e2, Raise x) => (e2, Raise x)
        end
    | (e1, Raise x) => (e1, Raise x)
    end.
Proof.
  unfold update, callback. py_unfold. destruct func as [f|]; simpl.
  - destruct (f e) as [e1 [[]|x]]; [|done].
    destruct (render _) as [e2 [[]|x]]; [|done].
    by destruct (draw e2) as [e3 [[]|x]].
  - destruct (render _) as [e2 [[]|x]]; [|done].
    by destruct (draw e2) as [e3 [[]|x]].
Qed.



(** X12.  The next tick is requested only by a tick that returns: when the
    callback, the projection or the drawing raises, the timers of the root
    window are left as the callback left them, and the animation stops. *)
Theorem update_reschedules (func : option (Py Engine unit)) (e e1 : Engine)
    (r1 : result unit) :
  callback func e = (e1, r1) →
  ((update func e).2 = Ok tt →
   Tk.timers (root (update func e).1) = Tk.timers (root e1) ++ [30%Z])
  ∧ (∀ x, (update func e).2 = Raise x → root (update func e).1 = root e1).
Proof.
  intros Hcb. rewrite update_run, Hcb.
  destruct r1 as [[]|x1]; [|by split].
  destruct (render_surface (refresh_viewport e1)) as (_ & _ & Hroot).
  destruct (render (refresh_viewport e1)) as [e2 [[]|x2]]; simpl in *.
  - pose proof (draw_root e2) as Hroot'.
    destruct (draw e2) as [e3 [[]|x3]]; simpl in *.
    + split; [intros _; by rewrite Hroot', Hroot | done].
    + split; [done | intros _ _; by rewrite Hroot', Hroot].
  - split; [done | by intros _ _].
Qed.

Lemma update_reschedules_witness :
  ((update (Some Demo.stride) (add_shape Demo.cube Demo.eng).1).2 = Ok tt →
   Tk.timers
     (root (update (Some Demo.stride) (add_shape Demo.cube Demo.eng).1).1)
   = Tk.timers (root (Demo.stride (add_shape Demo.cube Demo.eng).1).1)
     ++ [30%Z])
  ∧ (∀ x,
       (update (Some Demo.stride) (add_shape Demo.cube Demo.eng).1).2
       = Raise x →
       root (update (Some Demo.stride) (add_shape Demo.cube Demo.eng).1).1
       = root (Demo.stride (add_shape Demo.cube Demo.eng).1).1).
Proof.
  apply (update_reschedules (Some Demo.stride)
           (add_shape Demo.cube Demo.eng).1
           (Demo.stride (add_shape Demo.cube Demo.eng).1).1 (Ok tt)).
  vm_compute. reflexivity.
Defined.

(** ** Moving the observer by any list *)

(** [l] with the components of [vect] added from position [k] on. *)
Local Notation shifted_from k vect l :=
  (imap (λ i y, if decide (k ≤ i)%nat
                then match vect !! (i - k)%nat with
                     | Some x => y + x
                     | None => y
                     end
                else y) l).

Lemma shifted_from_0 (vect l : list float) :
  shifted_from 0%nat vect l = shifted vect l.
Proof.
  unfold shifted. apply imap_ext. intros i y _. cbv beta.
  case_decide; [by rewrite Nat.sub_0_r | lia].
Qed.

Lemma shifted_from_nil (k : nat) (l : list float) : shifted_from k [] l = l.
Proof.
  apply list_eq. intros i. rewrite list_lookup_imap.
  destruct (l !! i) as [y|]; [|done]. simpl.
  by case_decide.
Qed.

Lemma shifted_from_beyond (k : nat) (vect l : list float) :
  (length l ≤ k)%nat → shifted_from k vect l = l.
Proof.
  intros Hk. apply list_eq. intros i. rewrite list_lookup_imap.
  destruct (l !! i) as [y|] eqn:Hi; [|done]. simpl.
  apply lookup_lt_Some in Hi. by rewrite decide_False by lia.
Qed.

Lemma shifted_from_step (k : nat) (x o : float) (vect l : list float) :
  l !! k = Some o →
  shifted_from (S k) vect (<[k := o + x]> l) = shifted_from k (x :: vect) l.
Proof.
  intros Hk. apply list_eq. intros i. rewrite !list_lookup_imap.
  destruct (decide (i = k)) as [->|Hne].
  - rewrite list_lookup_insert_eq by by eapply lookup_lt_Some.
    rewrite Hk. simpl. rewrite decide_False by lia.
    rewrite decide_True by lia. by rewrite Nat.sub_diag.
  - rewrite list_lookup_insert_ne by done.
    destruct (l !! i) as [y|]; [|done]. simpl.
    destruct (decide (S k ≤ i)%nat) as [Hle|Hle].
    + rewrite decide_True by lia.
      by replace (i - k)%nat with (S (i - S k)) by lia.
    + by rewrite decide_False by lia.
Qed.

(** One step of the loop of [move_obs] at the position [k]. *)
Lemma move_obs_step_at (k : nat) (x : float) (e : Engine) :
  length (obs e) = length (window_pos e) →
  ((o ← gets obs; o_i ← lift (getitem o (Z.of_nat k));
    o' ← lift (setitem o (Z.of_nat k) (o_i + x)); modify (set_obs o')) ;;
   (w ← gets window_pos; w_i ← lift (getitem w (Z.of_nat k));
    w' ← lift (setitem w (Z.of_nat k) (w_i + x));
    modify (set_window_pos w'))) e
  = match obs e !! k, window_pos e !! k with
    | Some o, Some w =>
        (set_window_pos (<[k := w + x]> (window_pos e))
           (set_obs (<[k := o + x]> (obs e)) e), Ok tt)
    | _, _ => (e, Raise IndexError)
    end.
Proof.
  intros Hlen. py_unfold. unfold getitem, setitem.
  destruct (obs e !! k) as [o|] eqn:Ho.
  - pose proof (lookup_lt_Some _ _ _ Ho) as Hlt.
    destruct (lookup_lt_is_Some_2 (window_pos e) k) as [w Hw]; [lia|].
    rewrite Hw. rewrite !position_nonneg by lia. rewrite !Nat2Z.id, Ho.
    simpl. rewrite ?position_nonneg by lia. rewrite ?Nat2Z.id, ?Hw.
    simpl. rewrite ?position_nonneg by lia. by rewrite ?Nat2Z.id.
  - apply lookup_ge_None in Ho.
    assert (position (length (obs e)) (Z.of_nat k) = None) as ->
      by (apply position_None; lia).
    done.
Qed.

Lemma move_obs_from (vect : list float) :
  ∀ (k : nat) (e : Engine),
    length (obs e) = length (window_pos e) →
    (k ≤ length (obs e))%nat →
    for_each (imap (λ i x, (Z.of_nat (k + i), x)) vect)
      (λ '(i, x),
        (o ← gets obs; o_i ← lift (getitem o i);
         o' ← lift (setitem o i (o_i + x)); modify (set_obs o')) ;;
        (w ← gets window_pos; w_i ← lift (getitem w i);
         w' ← lift (setitem w i (w_i + x)); modify (set_window_pos w'))) e
    = (set_window_pos (shifted_from k vect (window_pos e))
         (set_obs (shifted_from k vect (obs e)) e),
       if decide (k + length vect ≤ length (obs e))%nat
       then Ok tt else Raise IndexError).
Proof.
  induction vect as [|x vect IH]; intros k e Hlen Hk.
  - simpl. rewrite !shifted_from_nil, decide_True by lia. by destruct e.
  - rewrite imap_cons, for_each_cons. rewrite Nat.add_0_r.
    rewrite (move_obs_step_at k x e Hlen).
    destruct (obs e !! k) as [o|] eqn:Ho.
    + pose proof (lookup_lt_Some _ _ _ Ho) as Hlt.
      destruct (lookup_lt_is_Some_2 (window_pos e) k) as [w Hw]; [lia|].
      rewrite Hw.
      rewrite (imap_ext _ (λ i x, (Z.of_nat (S k + i), x)))
        by (intros i y _; simpl; do 2 f_equal; lia).
      rewrite IH by (simpl; rewrite ?length_insert; lia).
      simpl. rewrite !length_insert.
      rewrite (shifted_from_step k x o vect (obs e) Ho).
      rewrite (shifted_from_step k x w vect (window_pos e) Hw).
      f_equal. repeat case_decide; done || lia.
    + apply lookup_ge_None in Ho.
      rewrite !shifted_from_beyond by lia.
      rewrite decide_False by (simpl; lia). by destruct e.
Qed.

(** X13.  On an observer and a plane origin of the same length, [move_obs]
    adds to each the components of the delta, as far as the delta reaches: a
    shorter delta leaves the last components in place, the empty one
    everything.  A delta longer than the observer moves every component and
    then raises [IndexError]. *)
Theorem move_obs_any_length (vect : list float) (e : Engine) :
  length (obs e) = length (window_pos e) →
  move_obs vect e
  = (set_window_pos (shifted vect (window_pos e))
       (set_obs (shifted vect (obs e)) e),
     if decide (length vect ≤ length (obs e))%nat
     then Ok tt else Raise IndexError).
Proof.
  intros Hlen.
  pose proof (move_obs_from vect 0 e Hlen (Nat.le_0_l _)) as Hrun.
  rewrite !shifted_from_0 in Hrun. exact Hrun.
Qed.

Lemma move_obs_any_length_witness :
  move_obs [1; 1; 1; 1] Demo.eng
  = (set_window_pos (shifted [1; 1; 1; 1] (window_pos Demo.eng))
       (set_obs (shifted [1; 1; 1; 1] (obs Demo.eng)) Demo.eng),
     if decide (le (length ([1; 1; 1; 1] : list float)) (length (obs Demo.eng)))
     then Ok tt else Raise IndexError).
Proof.
  apply (move_obs_any_length [1; 1; 1; 1] Demo.eng). reflexivity.
Defined.

(** ** Stale caches and unused attributes *)

Lemma move_obs_preserves (I : Engine → Prop) (vect : list float) :
  (∀ o e, I e → I (set_obs o e)) →
  (∀ w e, I e → I (set_window_pos w e)) →
  preserves I (move_obs vect).
Proof.
  intros Ho Hw. unfold move_obs. apply preserves_for_each. intros [i x].
  repeat first
    [ apply preserves_bind | intros ? | apply preserves_gets
    | apply preserves_lift | apply preserves_modify ]; auto.
Qed.

(** X15.  [draw] reads the cache, not the observer: after [move_obs] and
    without a new [render], it submits the segments it would have submitted
    before the move, with the same outcome. *)
Theorem draw_stale_after_move (vect : list float) (e : Engine) :
  (draw (move_obs vect e).1).2 = (draw e).2
  ∧ Tk.drawn (canvas (draw (move_obs vect e).1).1)
    = Tk.drawn (canvas (draw e).1).
Proof.
  assert (shapes (move_obs vect e).1 = shapes e
          ∧ canvas_shape (move_obs vect e).1 = canvas_shape e
          ∧ canvas (move_obs vect e).1 = canvas e
          ∧ canvas_id (move_obs vect e).1 = canvas_id e)
    as (Hss & Hcs & Hc & Hid).
  { by apply (move_obs_preserves
                (λ e', shapes e' = shapes e
                       ∧ canvas_shape e' = canvas_shape e
                       ∧ canvas e' = canvas e
                       ∧ canvas_id e' = canvas_id e)). }
  rewrite (draw_segments (move_obs vect e).1), (draw_segments e).
  cbn [fst snd]. rewrite Hss, Hcs. split; [done|].
  rewrite !emit_all_drawn. simpl. unfold cleared. by rewrite Hc, Hid.
Qed.

Lemma emit_all_window_size (ws : list float) (segs : list Tk.segment)
    (e : Engine) :
  foldl emit (set_window_size ws e) segs
  = set_window_size ws (foldl emit e segs).
Proof.
  revert e. induction segs as [|seg segs IH]; intros e; [done|].
  simpl. rewrite <- IH. by destruct seg as [[[??]?]?].
Qed.

(** X16.  The attribute [window_size] is read by neither [render] nor
    [draw]: with another window size they do the same, and leave that
    window size in place. *)
Theorem window_size_unused (ws : list float) (e : Engine) :
  render (set_window_size ws e)
  = (set_window_size ws (render e).1, (render e).2)
  ∧ draw (set_window_size ws e)
    = (set_window_size ws (draw e).1, (draw e).2).
Proof.
  split.
  - unfold render. simpl. by destruct (for_objects (shapes e) _).
  - rewrite !draw_segments. simpl. f_equal.
    by rewrite <- emit_all_window_size.
Qed.

(** ** The cube and its center *)

(** X18.  [Square] needs three components of its center: on a shorter list it
    raises [IndexError], and of a longer one it reads the first three
    only. *)
Theorem Square_center_length (pos : list float) (s : float) :
  ((length pos < 3)%nat → Square (Some pos) s = Raise IndexError)
  ∧ (∀ cx cy cz rest,
       pos = cx :: cy :: cz :: rest →
       Square (Some pos) s = Square (Some [cx; cy; cz]) s).
Proof.
  split.
  - intros Hlen. destruct pos as [|a [|b [|c rest]]]; simpl in Hlen;
      [reflexivity | reflexivity | reflexivity | lia].
  - intros cx cy cz rest ->. unfold Square.
    by rewrite !getitem_0, !getitem_1, !getitem_2.
Qed.

(** ** The projection of triples *)

Lemma window_projection_outcome (O W : Vec3) (vs : list Vec3) (s : Shape) :
  verts s = to_list <$> vs →
  if bool_decide (Forall (λ P, divides X P O && divides Y P O = true) vs)
  then window_projection (to_list O) (to_list W) s
       = (set_verts_proj
            ((λ P, [axis_value X P O W; axis_value Y P O W]) <$> vs) s,
          Ok tt)
  else ∃ s', window_projection (to_list O) (to_list W) s
             = (s', Raise ZeroDivisionError).
Proof.
  intros Hvs. case_bool_decide as Hall.
  - apply window_projection_ok. rewrite Hvs.
    apply Forall2_fmap, Forall_Forall2_diag.
    eapply Forall_impl; [exact Hall|]. intros P HP. simpl.
    by rewrite project_vertex_triple, HP.
  - destruct (window_projection (to_list O) (to_list W) s) as [s' [[]|x]]
      eqn:Hrun.
    + exfalso. apply Hall. apply window_projection_completed in Hrun.
      rewrite Hvs in Hrun. apply Forall_forall. intros P HP.
      apply list_elem_of_lookup in HP as [i Hi].
      assert ((to_list <$> vs) !! i = Some (to_list P)) as Hi'
        by by rewrite list_lookup_fmap, Hi.
      destruct (Forall2_lookup_l _ _ _ _ _ Hrun Hi') as (p2 & _ & Hp2).
      rewrite project_vertex_triple in Hp2.
      by destruct (divides X P O && divides Y P O).
    + exists s'. f_equal. f_equal.
      apply window_projection_raised in Hrun as (p & Hp & Hraise).
      rewrite Hvs in Hp. apply list_elem_of_fmap in Hp as (P & -> & _).
      rewrite project_vertex_triple in Hraise.
      destruct (divides X P O && divides Y P O); congruence.
Qed.

(** X22.  On a shape whose vertices are the triples [vs], with observer [O]
    and plane origin [W], [window_projection] returns exactly when, for
    every vertex and each axis [A] with [P[A] != O[A]], the difference
    [P[A] − O[A]] and the slope are other than zero.  The list it then
    leaves in [verts_proj] has one entry per vertex, entry [i] being the pair
    of the values the two formulas give for vertex [i], computed in floats;
    and the only exception it raises is [ZeroDivisionError]. *)
Theorem window_projection_triples (O W : Vec3) (vs : list Vec3) (s : Shape) :
  verts s = to_list <$> vs →
  ((window_projection (to_list O) (to_list W) s).2 = Ok tt
   ↔ Forall (λ P, divides X P O && divides Y P O = true) vs)
  ∧ (∀ s', window_projection (to_list O) (to_list W) s = (s', Ok tt) →
       verts_proj s'
       = (λ P, [axis_value X P O W; axis_value Y P O W]) <$> vs
       ∧ length (verts_proj s') = length (verts s))
  ∧ (∀ s' x, window_projection (to_list O) (to_list W) s = (s', Raise x) →
       x = ZeroDivisionError).
Proof.
  intros Hvs. pose proof (window_projection_outcome O W vs s Hvs) as Hout.
  case_bool_decide as Hall.
  - rewrite Hout. split; [done|]. split; [|done].
    intros s' [= <-]. simpl. by rewrite Hvs, !length_fmap.
  - destruct Hout as [s1 Hout]. rewrite Hout. split; [done|].
    split; [done|]. by intros s' x [= _ <-].
Qed.

Lemma window_projection_triples_witness :
  ((window_projection (to_list {| vx := 0.0; vy := 0.0; vz := -1.0 |})
      (to_list {| vx := -0.5; vy := -0.5; vz := 0.0 |})
      (Shape__init__ (Some [[1.0; 0.0; 4.0]; [-2.0; 3.0; 1.0]])
         (Some [[0; 1]%Z]))).2 = Ok tt
   ↔ Forall (λ P, divides X P {| vx := 0.0; vy := 0.0; vz := -1.0 |}
                  && divides Y P {| vx := 0.0; vy := 0.0; vz := -1.0 |}
                  = true)
       [{| vx := 1.0; vy := 0.0; vz := 4.0 |};
        {| vx := -2.0; vy := 3.0; vz := 1.0 |}])
  ∧ (∀ s',
       window_projection (to_list {| vx := 0.0; vy := 0.0; vz := -1.0 |})
         (to_list {| vx := -0.5; vy := -0.5; vz := 0.0 |})
         (Shape__init__ (Some [[1.0; 0.0; 4.0]; [-2.0; 3.0; 1.0]])
            (Some [[0; 1]%Z])) = (s', Ok tt) →
       verts_proj s'
       = (λ P, [axis_value X P {| vx := 0.0; vy := 0.0; vz := -1.0 |}
                  {| vx := -0.5; vy := -0.5; vz := 0.0 |};
                axis_value Y P {| vx := 0.0; vy := 0.0; vz := -1.0 |}
                  {| vx := -0.5; vy := -0.5; vz := 0.0 |}])
           <$> [{| vx := 1.0; vy := 0.0; vz := 4.0 |};
                {| vx := -2.0; vy := 3.0; vz := 1.0 |}]
       ∧ length (verts_proj s')
         = length (verts (Shape__init__
                            (Some [[1.0; 0.0; 4.0]; [-2.0; 3.0; 1.0]])
                            (Some [[0; 1]%Z]))))
  ∧ (∀ s' x,
       window_projection (to_list {| vx := 0.0; vy := 0.0; vz := -1.0 |})
         (to_list {| vx := -0.5; vy := -0.5; vz := 0.0 |})
         (Shape__init__ (Some [[1.0; 0.0; 4.0]; [-2.0; 3.0; 1.0]])
            (Some [[0; 1]%Z])) = (s', Raise x) →
       x = ZeroDivisionError).
Proof.
  apply (window_projection_triples
           {| vx := 0.0; vy := 0.0; vz := -1.0 |}
           {| vx := -0.5; vy := -0.5; vz := 0.0 |}
           [{| vx := 1.0; vy := 0.0; vz := 4.0 |};
            {| vx := -2.0; vy := 3.0; vz := 1.0 |}]).
  reflexivity.
Defined.
